(** * ecoTwin API client: a shallow embedding of [ecotwinclient.py]

    The client is synchronous glue code around three collaborators that are
    not part of the file: the [requests] HTTP library, the system clock and
    the [SecureTokenManager].  They are modelled as

    - a transport oracle answering every request from the history of the
      requests sent so far,
    - one clock reading held in the world state, advanced only while a
      request is on the wire,
    - an interface ([TokenManager]) that any token manager implements.

    Python exceptions do not undo effects, so a computation returns its
    outcome together with the world it leaves behind.  Python floats (clock
    readings, channel values, JSON numbers) are represented by exact
    rationals. *)

From Stdlib Require Import ZArith QArith List String Ascii Bool Lia.
From Stdlib Require Import DecimalString.
Import ListNotations.

Local Open Scope string_scope.
Local Open Scope Z_scope.

(** ** Python values and dictionaries *)

(** A dictionary keeps insertion order; it is an association list whose
    first binding of a key is the live one. *)
Definition Dict (V : Type) : Type := list (string * V).

(** The values [response.json()] can produce. *)
#[local] Set Warnings "-register-all".
Inductive PyVal : Type :=
| PyNone
| PyBool (b : bool)
| PyInt (z : Z)
| PyFloat (q : Q)
| PyStr (s : string)
| PyList (l : list PyVal)
| PyDict (d : list (string * PyVal)).
#[local] Set Warnings "register-all".

Inductive Exn : Type :=
| HTTPError (status : Z)
| RequestException
| JSONDecodeError
| ValueError (msg : string)
| ZeroDivisionError
| KeyError (key : string)
| TypeError
| AttributeError.

Inductive Outcome (A : Type) : Type :=
| Return (a : A)
| Raise (e : Exn).
Arguments Return {A} a.
Arguments Raise {A} e.

Section Dictionaries.
Context {V : Type}.

(** [d.get(key)]: the value bound to [key], if any. *)
Fixpoint dict_lookup (key : string) (d : Dict V) : option V :=
  match d with
  | [] => None
  | (k, v) :: rest => if String.eqb k key then Some v else dict_lookup key rest
  end.

(** [d.get(key, default)] *)
Definition dict_get (key : string) (default : V) (d : Dict V) : V :=
  match dict_lookup key d with
  | Some v => v
  | None => default
  end.

(** [d[key]] *)
Definition dict_getitem (key : string) (d : Dict V) : Outcome V :=
  match dict_lookup key d with
  | Some v => Return v
  | None => Raise (KeyError key)
  end.

(** [d[key] = v]: overwrite in place, or append a new binding. *)
Fixpoint dict_setitem (key : string) (v : V) (d : Dict V) : Dict V :=
  match d with
  | [] => [(key, v)]
  | (k, v0) :: rest =>
      if String.eqb k key then (k, v) :: rest
      else (k, v0) :: dict_setitem key v rest
  end.
End Dictionaries.

(** ** Numbers *)

(** [a // b] on integers: floor division, an error when [b] is zero. *)
Definition py_floordiv (a b : Z) : Outcome Z :=
  if b =? 0 then Raise ZeroDivisionError else Return (a / b).

(** [int(x)] on a float: truncation towards zero. *)
Definition int_of_float (q : Q) : Z := Z.quot (Qnum q) (Zpos (Qden q)).

(** [str(z)] / the [{z}] field of an f-string, for an integer. *)
Definition str_of_int (z : Z) : string := NilZero.string_of_int (Z.to_int z).


(** ** The data model *)

Record Credentials : Type := mkCredentials {
  cred_client_id : string;
  cred_client_secret : string;
  cred_resource : string
}.

Record Header : Type := mkHeader {
  projectId : string;
  interval : Z;
  start_t : Z
}.

Record Timeseries : Type := mkTimeseries {
  y : Dict (list Q);
  n : Dict (list Q)
}.

Record Forecast : Type := mkForecast {
  header : Header;
  timeseries : Timeseries
}.

(** ** HTTP *)

Inductive Method : Type := POST | PUT | GET.

Inductive Payload : Type :=
| NoBody
| FormData (data : Dict string)
| JsonBody (forecast : Forecast).

Record Request : Type := mkRequest {
  req_method : Method;
  req_url : string;
  req_headers : Dict string;
  req_payload : Payload
}.

(** What the client looks at in a [requests.Response]: the status code and
    the result of [response.json()] ([None] when the body is not JSON). *)
Record Response : Type := mkResponse {
  status_code : Z;
  resp_json : option PyVal
}.

(** [response.raise_for_status()] of the [requests] library: an [HTTPError]
    for a 4xx (client error) or 5xx (server error) status, nothing
    otherwise. *)
Definition raise_for_status (r : Response) : Outcome unit :=
  if (400 <=? status_code r) && (status_code r <? 600)
  then Raise (HTTPError (status_code r))
  else Return tt.

(** [response.json()] *)
Definition response_json (r : Response) : Outcome PyVal :=
  match resp_json r with
  | Some v => Return v
  | None => Raise JSONDecodeError
  end.

(** What the network does with one request: the call returns a response or
    raises (connection failure, timeout), after some time has elapsed. *)
Record Reply : Type := mkReply {
  reply_outcome : Outcome Response;
  reply_elapsed : Q
}.

(** ** The token manager interface *)

(** The three methods the client calls on [self.token_manager].  [get_token]
    may consult the clock; it does not change what is stored. *)
Class TokenManager (TM : Type) : Type := {
  get_credentials : TM -> Credentials;
  get_token : TM -> Q -> option (Dict PyVal);
  store_token : Dict PyVal -> TM -> TM
}.

(** Modelled from the spec: the [SecureTokenManager] of [tokenmanager.py],
    which is not part of the sources.  It holds the credentials and caches
    one token record; [get_token] hands back the cached record, or nothing
    when none was stored, and [store_token] replaces the cached record. *)
Record CacheTM : Type := mkCacheTM {
  tm_credentials : Credentials;
  tm_token : option (Dict PyVal)
}.

#[global] Instance CacheTM_TokenManager : TokenManager CacheTM := {
  get_credentials tm := tm_credentials tm;
  get_token tm _ := tm_token tm;
  store_token tok tm := mkCacheTM (tm_credentials tm) (Some tok)
}.

(** [expires_at] of a token record, when the record carries a number there. *)
Definition expires_at (tok : Dict PyVal) : option Q :=
  match dict_lookup "expires_at" tok with
  | Some (PyFloat q) => Some q
  | Some (PyInt z) => Some (inject_Z z)
  | _ => None
  end.

(** ** The world and the computation monad *)

Section World.
Context {TM : Type}.

Record World : Type := mkWorld {
  w_tm : TM;
  w_time : Q;
  w_sent : list Request
}.

Definition Py (A : Type) : Type := World -> Outcome A * World.

Definition ret {A} (a : A) : Py A := fun w => (Return a, w).

Definition raise {A} (e : Exn) : Py A := fun w => (Raise e, w).

Definition bind {A B} (m : Py A) (k : A -> Py B) : Py B :=
  fun w =>
    match m w with
    | (Return a, w') => k a w'
    | (Raise e, w') => (Raise e, w')
    end.

Definition lift {A} (o : Outcome A) : Py A := fun w => (o, w).
End World.
Arguments World TM : clear implicits.
Arguments Py TM A : clear implicits.

Declare Scope py_scope.
Delimit Scope py_scope with py.
Notation "x <- m ;; k" := (bind m (fun x => k))
  (at level 61, m at next level, right associativity) : py_scope.
Notation "m ;;; k" := (bind m (fun _ => k))
  (at level 61, right associativity) : py_scope.

(** ** The client *)

(** The fields [_load_credentials] sets on [self]; [self.token_manager] is
    shared with the caller and lives in the world. *)
Record EcoTwinAPIClient : Type := mkClient {
  client_id : string;
  client_secret : string;
  resource : string
}.

(** What the client takes from its surroundings: the network, and the two
    Python builtins whose full definition is immaterial here, [int] on a
    string and [str] on a value that is not a string. *)
Record Environment : Type := mkEnvironment {
  transport : list Request -> Request -> Reply;
  int_of_str : string -> Outcome Z;
  str_of_val : PyVal -> string
}.

Definition token_url : string :=
  "https://login.microsoftonline.com/privagroup.onmicrosoft.com/oauth2/token".

(** [if token_data:] is false for [None] and for an empty dictionary. *)
Definition truthy (token_data : option (Dict PyVal)) : bool :=
  match token_data with
  | Some (_ :: _) => true
  | _ => false
  end.

(** [token_data[key]] where [token_data] may be [None]. *)
Definition subscript (key : string) (token_data : option (Dict PyVal)) : Outcome PyVal :=
  match token_data with
  | Some d => dict_getitem key d
  | None => Raise TypeError
  end.

(** [body.get]: only a dictionary has the method. *)
Definition as_dict (body : PyVal) : Outcome (Dict PyVal) :=
  match body with
  | PyDict d => Return d
  | _ => Raise AttributeError
  end.

(** The text of the validation error of [create_eco_forecast]. *)
Definition short_channel_message (io_name : string) (min_length : Z) : string :=
  "VirtualIO " ++ io_name ++ " must have at least " ++ str_of_int min_length ++ " values".

(** The [for] loop of [create_eco_forecast]: the first channel that is too
    short raises. *)
Fixpoint check_lengths (items : Dict (list Q)) (min_length : Z) : Outcome unit :=
  match items with
  | [] => Return tt
  | (io_name, values) :: rest =>
      if Z.of_nat (List.length values) <? min_length
      then Raise (ValueError (short_channel_message io_name min_length))
      else check_lengths rest min_length
  end.

Section Client.
Context {TM : Type} `{TokenManager TM}.
Variable env : Environment.

Local Open Scope py_scope.

(** [time.time()] and [datetime.now(timezone.utc).timestamp()] *)
Definition time_time : Py TM Q := fun w => (Return (w_time w), w).

(** [requests.post], [requests.put], [requests.get] *)
Definition send (r : Request) : Py TM Response :=
  fun w =>
    let reply := transport env (w_sent w) r in
    (reply_outcome reply,
     mkWorld (w_tm w) (w_time w + reply_elapsed reply)%Q (r :: w_sent w)).

Definition tm_get_token : Py TM (option (Dict PyVal)) :=
  fun w => (Return (get_token (w_tm w) (w_time w)), w).

Definition tm_store_token (token_data : Dict PyVal) : Py TM unit :=
  fun w => (Return tt, mkWorld (store_token token_data (w_tm w)) (w_time w) (w_sent w)).

(** [int(x)] *)
Definition py_int (x : PyVal) : Outcome Z :=
  match x with
  | PyInt z => Return z
  | PyBool b => Return (if b then 1 else 0)
  | PyFloat q => Return (int_of_float q)
  | PyStr s => int_of_str env s
  | _ => Raise TypeError
  end.

(** [f'{x}'] *)
Definition py_format (x : PyVal) : string :=
  match x with
  | PyStr s => s
  | _ => str_of_val env x
  end.

Definition _get_access_token (self : EcoTwinAPIClient) : Py TM PyVal :=
  token_data <- tm_get_token ;;
  if truthy token_data then lift (subscript "access_token" token_data)
  else
    let url := token_url in
    let payload :=
      [("grant_type", "client_credentials");
       ("client_id", client_id self);
       ("client_secret", client_secret self);
       ("resource", resource self)] in
    let headers := [("Content-Type", "application/x-www-form-urlencoded")] in
    response <- send (mkRequest POST url headers (FormData payload)) ;;
    lift (raise_for_status response) ;;;
    body <- lift (response_json response) ;;
    token_data <- lift (as_dict body) ;;
    expires_in <- lift (py_int (dict_get "expires_in" (PyStr "3600") token_data)) ;;
    now <- time_time ;;
    let token_data :=
      dict_setitem "expires_at" (PyFloat (now + inject_Z expires_in)) token_data in
    tm_store_token token_data ;;;
    lift (dict_getitem "access_token" token_data).

Definition _ensure_valid_token (self : EcoTwinAPIClient) : Py TM PyVal :=
  token_data <- tm_get_token ;;
  token_data <- (if truthy token_data then ret token_data
                 else _get_access_token self ;;; tm_get_token) ;;
  lift (subscript "access_token" token_data).

Definition create_eco_forecast (self : EcoTwinAPIClient) (project_id : string)
    (virtual_io_values : Dict (list Q)) (interval : Z) : Py TM Forecast :=
  min_length <- lift (py_floordiv 86400 interval) ;;
  lift (check_lengths virtual_io_values min_length) ;;;
  now <- time_time ;;
  let forecast :=
    {| header := {| projectId := project_id;
                    interval := interval;
                    start_t := int_of_float now |};
       timeseries := {| y := virtual_io_values; n := [] |} |} in
  ret forecast.

Definition put_forecast (self : EcoTwinAPIClient) (eco_twin_id : string)
    (forecast : Forecast) (check : bool) : Py TM Response :=
  access_token <- _ensure_valid_token self ;;
  let url :=
    "https://energyoptimizer.azure-api.net/eco/v2/twins/" ++ eco_twin_id
      ++ "/forecast/external" in
  let url := if check then url ++ "?check" else url in
  let headers :=
    [("Authorization", "Bearer " ++ py_format access_token);
     ("Content-Type", "application/json")] in
  response <- send (mkRequest PUT url headers (JsonBody forecast)) ;;
  lift (raise_for_status response) ;;;
  ret response.

Definition get_twin_status (self : EcoTwinAPIClient) (eco_twin_id : string) : Py TM PyVal :=
  access_token <- _ensure_valid_token self ;;
  let url :=
    "https://energyoptimizer.azure-api.net/eco/v2/twins/" ++ eco_twin_id ++ "/status" in
  let headers := [("Authorization", "Bearer " ++ py_format access_token)] in
  response <- send (mkRequest GET url headers NoBody) ;;
  lift (raise_for_status response) ;;;
  lift (response_json response).

Definition get_all_twins_status (self : EcoTwinAPIClient) : Py TM PyVal :=
  access_token <- _ensure_valid_token self ;;
  let url := "https://energyoptimizer.azure-api.net/eco/v2/status" in
  let headers := [("Authorization", "Bearer " ++ py_format access_token)] in
  response <- send (mkRequest GET url headers NoBody) ;;
  lift (raise_for_status response) ;;;
  lift (response_json response).
End Client.

(** [__init__] with a given token manager: [_load_credentials]. *)
Definition _load_credentials {TM} `{TokenManager TM} (token_manager : TM) : EcoTwinAPIClient :=
  let credentials := get_credentials token_manager in
  {| client_id := cred_client_id credentials;
     client_secret := cred_client_secret credentials;
     resource := cred_resource credentials |}.

(** ** Vocabulary of the statements *)

(** The requests the four HTTP operations put on the wire. *)
Definition token_request (self : EcoTwinAPIClient) : Request :=
  mkRequest POST token_url
    [("Content-Type", "application/x-www-form-urlencoded")]
    (FormData [("grant_type", "client_credentials");
               ("client_id", client_id self);
               ("client_secret", client_secret self);
               ("resource", resource self)]).

Definition forecast_request (bearer eco_twin_id : string) (forecast : Forecast)
    (check : bool) : Request :=
  mkRequest PUT
    (if check
     then "https://energyoptimizer.azure-api.net/eco/v2/twins/" ++ eco_twin_id
            ++ "/forecast/external?check"
     else "https://energyoptimizer.azure-api.net/eco/v2/twins/" ++ eco_twin_id
            ++ "/forecast/external")
    [("Authorization", "Bearer " ++ bearer); ("Content-Type", "application/json")]
    (JsonBody forecast).

Definition twin_status_request (bearer eco_twin_id : string) : Request :=
  mkRequest GET
    ("https://energyoptimizer.azure-api.net/eco/v2/twins/" ++ eco_twin_id ++ "/status")
    [("Authorization", "Bearer " ++ bearer)] NoBody.

Definition all_status_request (bearer : string) : Request :=
  mkRequest GET "https://energyoptimizer.azure-api.net/eco/v2/status"
    [("Authorization", "Bearer " ++ bearer)] NoBody.

(** The calls to the identity endpoint among the requests sent. *)
Definition identity_calls (sent : list Request) : list Request :=
  filter (fun r => String.eqb (req_url r) token_url) sent.

(** The world after one request [r] was answered in [elapsed] seconds. *)
Definition after_request {TM} (w : World TM) (r : Request) (elapsed : Q) : World TM :=
  mkWorld (w_tm w) (w_time w + elapsed)%Q (r :: w_sent w).

(** Every channel holds at least [min_length] values. *)
Definition all_long (min_length : Z) (channels : Dict (list Q)) : Prop :=
  Forall (fun kv => min_length <= Z.of_nat (List.length (snd kv))) channels.

(** Some channel holds fewer than [min_length] values. *)
Definition some_short (min_length : Z) (channels : Dict (list Q)) : Prop :=
  exists io_name values,
    In (io_name, values) channels /\ Z.of_nat (List.length values) < min_length.

(** ** Sample inputs *)

Module Sample.
Definition credentials : Credentials := mkCredentials "id" "secret" "res".

Definition decimal (s : string) : Outcome Z :=
  match NilZero.int_of_string s with
  | Some d => Return (Z.of_int d)
  | None => Raise (ValueError "invalid literal for int() with base 10")
  end.

(** A network where every request is answered with [status] and [body]
    after one second. *)
Definition answering (status : Z) (body : option PyVal) : Environment :=
  mkEnvironment (fun _ _ => mkReply (Return (mkResponse status body)) 1%Q)
                decimal (fun _ => "<object>").

Definition token_body : PyVal :=
  PyDict [("access_token", PyStr "fresh"); ("expires_in", PyStr "3600")].

Definition stored_token (expiry : Q) : Dict PyVal :=
  [("access_token", PyStr "cached"); ("expires_at", PyFloat expiry)].

(** No token cached, the clock at 1000. *)
Definition w_empty : World CacheTM := mkWorld (mkCacheTM credentials None) 1000%Q [].

(** A token cached that expires at 5000, the clock at 1000. *)
Definition w_cached : World CacheTM :=
  mkWorld (mkCacheTM credentials (Some (stored_token 5000%Q))) 1000%Q [].


Definition self : EcoTwinAPIClient := _load_credentials (w_tm w_empty).

Definition forecast : Forecast :=
  mkForecast (mkHeader "p" 300 1000) (mkTimeseries [] []).
End Sample.

(** ** A token manager that checks the expiry

    Not the repository's: a second implementation of the interface, one
    that hides a record once the clock has reached its [expires_at].  It
    exercises the client against a manager that may answer "no token" right
    after a record was stored. *)

Module Expiring.
Record ExpiringTM : Type := mkExpiringTM {
  credentials : Credentials;
  token : option (Dict PyVal)
}.

Definition visible (now : Q) (record : Dict PyVal) : option (Dict PyVal) :=
  match expires_at record with
  | Some expiry => if Qle_bool expiry now then None else Some record
  | None => None
  end.

#[global] Instance ExpiringTM_TokenManager : TokenManager ExpiringTM := {
  get_credentials tm := credentials tm;
  get_token tm now :=
    match token tm with
    | Some record => visible now record
    | None => None
    end;
  store_token record tm := mkExpiringTM (credentials tm) (Some record)
}.

(** No token stored, the clock at 1000. *)
Definition w_empty : World ExpiringTM :=
  mkWorld (mkExpiringTM Sample.credentials None) 1000%Q [].
End Expiring.

(** ** Vocabulary for the traces of requests *)

(** [after] extends [before] by what one operation may send: nothing, the
    token request, one request of the operation's own ([api]), or the token
    request followed by one request of the operation's own. *)
Definition one_operation (self : EcoTwinAPIClient) (api : Request -> Prop)
    (before after : list Request) : Prop :=
  after = before
  \/ after = token_request self :: before
  \/ exists r, api r /\ (after = r :: before \/ after = r :: token_request self :: before).

(** Form data, which is where the client secret travels, went to the
    identity endpoint only. *)
Definition credentials_confined (sent : list Request) : Prop :=
  Forall (fun r => forall data, req_payload r = FormData data -> req_url r = token_url) sent.

(** ** More sample inputs *)

Module Scenario.
(** A network that cannot be reached: every call fails after thirty
    seconds. *)
Definition unreachable : Environment :=
  mkEnvironment (fun _ _ => mkReply (Raise RequestException) 30%Q)
                Sample.decimal (fun _ => "<object>").

(** The usual identity endpoint. *)
Definition online : Environment := Sample.answering 200 (Some Sample.token_body).

(** An empty record cached. *)
Definition w_blank : World CacheTM :=
  mkWorld (mkCacheTM Sample.credentials (Some [])) 1000%Q [].

(** A record cached that has no [access_token]. *)
Definition w_broken : World CacheTM :=
  mkWorld (mkCacheTM Sample.credentials (Some [("token_type", PyStr "Bearer")])) 1000%Q [].
End Scenario.

(** * Verification *)

(** ** The length check *)

Lemma check_lengths_total (items : Dict (list Q)) (min_length : Z) :
  check_lengths items min_length = Return tt \/
  exists io_name values,
    In (io_name, values) items /\
    Z.of_nat (List.length values) < min_length /\
    check_lengths items min_length
      = Raise (ValueError (short_channel_message io_name min_length)).
Proof.
  induction items as [| [io_name values] rest IH]; simpl.
  - now left.
  - destruct (Z.ltb_spec (Z.of_nat (List.length values)) min_length) as [Hlt | Hge].
    + right. exists io_name, values. auto.
    + destruct IH as [IH | (k & v & Hin & Hlt & IH)]; [now left |].
      right. exists k, v. auto.
Qed.

Lemma check_lengths_Return (items : Dict (list Q)) (min_length : Z) :
  check_lengths items min_length = Return tt <-> all_long min_length items.
Proof.
  unfold all_long.
  induction items as [| [io_name values] rest IH]; simpl.
  - split; [constructor | reflexivity].
  - destruct (Z.ltb_spec (Z.of_nat (List.length values)) min_length) as [Hlt | Hge].
    + split; [discriminate |].
      intros Hall. inversion Hall; subst. simpl in *. lia.
    + rewrite IH. split.
      * intros Hall. constructor; [exact Hge | exact Hall].
      * intros Hall. now inversion Hall.
Qed.

Lemma all_long_not_short (min_length : Z) (items : Dict (list Q)) :
  all_long min_length items <-> ~ some_short min_length items.
Proof.
  unfold all_long, some_short. rewrite Forall_forall. split.
  - intros Hall (k & v & Hin & Hlt). specialize (Hall _ Hin). simpl in Hall. lia.
  - intros Hno [k v] Hin. simpl.
    destruct (Z.ltb_spec (Z.of_nat (List.length v)) min_length) as [Hlt | Hge]; [| exact Hge].
    exfalso. apply Hno. exists k, v. auto.
Qed.

Lemma check_lengths_Raise (items : Dict (list Q)) (min_length : Z) :
  (exists msg, check_lengths items min_length = Raise (ValueError msg))
  <-> some_short min_length items.
Proof.
  split.
  - intros [msg Hraise].
    destruct (check_lengths_total items min_length) as [Hok | (k & v & Hin & Hlt & _)].
    + congruence.
    + exists k, v. auto.
  - intros Hshort.
    destruct (check_lengths_total items min_length) as [Hok | (k & v & _ & _ & Hraise)].
    + apply check_lengths_Return, all_long_not_short in Hok. contradiction.
    + eexists. exact Hraise.
Qed.

Section ForecastFacts.
Context {TM : Type}.
Variables (self : EcoTwinAPIClient) (project_id : string).
Variable virtual_io_values : Dict (list Q).
Variable w : World TM.

(** The function unfolded: the division, then the loop, then the record.
    The world is never touched. *)
Lemma create_eco_forecast_eq (interval : Z) :
  create_eco_forecast self project_id virtual_io_values interval w =
  if interval =? 0 then (Raise ZeroDivisionError, w)
  else match check_lengths virtual_io_values (86400 / interval) with
       | Return _ =>
           (Return {| header := {| projectId := project_id;
                                   interval := interval;
                                   start_t := int_of_float (w_time w) |};
                      timeseries := {| y := virtual_io_values; n := [] |} |}, w)
       | Raise e => (Raise e, w)
       end.
Proof.
  unfold create_eco_forecast, bind, lift, ret, time_time, py_floordiv.
  destruct (interval =? 0); [reflexivity |].
  destruct (check_lengths virtual_io_values (86400 / interval)); reflexivity.
Qed.


(** C3: with [interval = 300] a mapping that has a channel of 287 values
    is refused with a validation error, and a mapping whose channels all
    hold 288 values or more yields a forecast. *)
Theorem create_eco_forecast_default_interval :
  ((exists io_name values,
       In (io_name, values) virtual_io_values /\ List.length values = 287%nat) ->
   exists msg,
     create_eco_forecast self project_id virtual_io_values 300 w
       = (Raise (ValueError msg), w))
  /\ (Forall (fun kv => (288 <= List.length (snd kv))%nat) virtual_io_values ->
      exists forecast,
        create_eco_forecast self project_id virtual_io_values 300 w
          = (Return forecast, w)).
Proof.
  rewrite create_eco_forecast_eq.
  change (300 =? 0) with false. change (86400 / 300) with 288. cbv iota. split.
  - intros (io_name & values & Hin & Hlen).
    destruct (proj2 (check_lengths_Raise virtual_io_values 288)) as [msg Hmsg].
    + exists io_name, values. split; [exact Hin | lia].
    + exists msg. now rewrite Hmsg.
  - intros Hall.
    assert (Hok : check_lengths virtual_io_values 288 = Return tt).
    { apply check_lengths_Return. unfold all_long.
      eapply Forall_impl; [| exact Hall]. simpl. intros kv Hkv. lia. }
    rewrite Hok. eexists. reflexivity.
Qed.


(** C9: the division [86400 // interval] is unguarded.  It raises a
    division error exactly when [interval = 0], and then the whole call
    fails with that error, not with a validation error; for a negative
    interval the minimum is not positive and every channel mapping is
    accepted. *)
Theorem create_eco_forecast_unguarded_division :
  (forall interval, py_floordiv 86400 interval = Raise ZeroDivisionError <-> interval = 0)
  /\ create_eco_forecast self project_id virtual_io_values 0 w
       = (Raise ZeroDivisionError, w)
  /\ (forall interval,
        interval < 0 ->
        86400 / interval <= 0
        /\ exists forecast,
             create_eco_forecast self project_id virtual_io_values interval w
               = (Return forecast, w)).
Proof.
  split; [| split].
  - intros interval. unfold py_floordiv.
    destruct (Z.eqb_spec interval 0); split; congruence.
  - now rewrite create_eco_forecast_eq.
  - intros interval Hneg.
    assert (Hmin : 86400 / interval < 0).
    { pose proof (Z.div_mod 86400 interval ltac:(lia)) as Hdm.
      pose proof (Z.mod_neg_bound 86400 interval Hneg) as Hr.
      nia. }
    split; [lia |].
    rewrite create_eco_forecast_eq.
    replace (interval =? 0) with false by (symmetry; apply Z.eqb_neq; lia).
    assert (Hok : check_lengths virtual_io_values (86400 / interval) = Return tt).
    { apply check_lengths_Return, all_long_not_short.
      intros (io_name & values & _ & Hlt). lia. }
    rewrite Hok. eexists. reflexivity.
Qed.

(** C10: for an interval of at least one, the empty channel mapping is
    accepted, and the forecast returned has empty [y] and [n]. *)
Theorem create_eco_forecast_no_channels (interval : Z) :
  1 <= interval ->
  exists forecast,
    create_eco_forecast self project_id [] interval w = (Return forecast, w)
    /\ y (timeseries forecast) = []
    /\ n (timeseries forecast) = [].
Proof.
  intros Hpos.
  unfold create_eco_forecast, bind, lift, ret, time_time, py_floordiv.
  replace (interval =? 0) with false by (symmetry; apply Z.eqb_neq; lia).
  simpl. eexists. repeat split.
Qed.
End ForecastFacts.

(** *** Concrete runs of [create_eco_forecast] *)



Lemma create_eco_forecast_default_interval_witness :
  (exists msg,
     create_eco_forecast Sample.self "p" [("a", repeat 0%Q 287)] 300 Sample.w_empty
       = (Raise (ValueError msg), Sample.w_empty))
  /\ (exists forecast,
        create_eco_forecast Sample.self "p" [("a", repeat 0%Q 288)] 300 Sample.w_empty
          = (Return forecast, Sample.w_empty)).
Proof.
  split.
  - apply (proj1 (create_eco_forecast_default_interval
                    Sample.self "p" [("a", repeat 0%Q 287)] Sample.w_empty)).
    exists "a", (repeat 0%Q 287). split; [now left | apply repeat_length].
  - apply (proj2 (create_eco_forecast_default_interval
                    Sample.self "p" [("a", repeat 0%Q 288)] Sample.w_empty)).
    constructor; [| constructor]. cbn [snd]. rewrite repeat_length. apply le_n.
Defined.


Lemma create_eco_forecast_unguarded_division_witness :
  86400 / (-7) <= 0
  /\ exists forecast,
       create_eco_forecast Sample.self "p" [("a", [])] (-7) Sample.w_empty
         = (Return forecast, Sample.w_empty).
Proof.
  apply (proj2 (proj2 (create_eco_forecast_unguarded_division
                         Sample.self "p" [("a", [])] Sample.w_empty))).
  lia.
Defined.

Lemma create_eco_forecast_no_channels_witness :
  1 <= 60
  /\ exists forecast,
       create_eco_forecast Sample.self "p" [] 60 Sample.w_empty
         = (Return forecast, Sample.w_empty)
       /\ y (timeseries forecast) = []
       /\ n (timeseries forecast) = [].
Proof.
  split; [lia |].
  apply (create_eco_forecast_no_channels Sample.self "p" Sample.w_empty 60). lia.
Defined.

(** ** Dictionaries and strings *)



Lemma string_append_assoc (a b c : string) : ((a ++ b) ++ c = a ++ (b ++ c))%string.
Proof. induction a as [| ch a IH]; simpl; [reflexivity | now rewrite IH]. Qed.

Lemma raise_for_status_error (r : Response) :
  400 <= status_code r < 600 -> raise_for_status r = Raise (HTTPError (status_code r)).
Proof.
  intros [Hlo Hhi]. unfold raise_for_status.
  apply Z.leb_le in Hlo. apply Z.ltb_lt in Hhi. now rewrite Hlo, Hhi.
Qed.

Lemma raise_for_status_pass (r : Response) :
  ~ 400 <= status_code r < 600 -> raise_for_status r = Return tt.
Proof.
  intros Hout. unfold raise_for_status.
  destruct (Z.leb_spec 400 (status_code r)), (Z.ltb_spec (status_code r) 600);
    simpl; (reflexivity || lia).
Qed.

Ltac py_unfold :=
  unfold bind, lift, ret, raise, send, tm_get_token, tm_store_token, time_time.

Section ClientFacts.
Context {TM : Type} `{TokenManager TM}.
Variable env : Environment.
Variable self : EcoTwinAPIClient.

(** *** Token acquisition *)

(** With a usable cached record nothing happens but the lookup. *)
Lemma _ensure_valid_token_cached (w : World TM) (token_data : Dict PyVal)
    (access_token : PyVal) :
  get_token (w_tm w) (w_time w) = Some token_data ->
  dict_lookup "access_token" token_data = Some access_token ->
  _ensure_valid_token env self w = (Return access_token, w).
Proof.
  intros Hget Hkey. unfold _ensure_valid_token. py_unfold.
  rewrite Hget. destruct token_data as [| kv rest]; [discriminate |].
  simpl. unfold dict_getitem. now rewrite Hkey.
Qed.

(** Without one, [_get_access_token] posts to the identity endpoint; what
    follows depends on the reply. *)
Lemma _get_access_token_fetch (w : World TM) :
  truthy (get_token (w_tm w) (w_time w)) = false ->
  _get_access_token env self w =
  let reply := transport env (w_sent w) (token_request self) in
  let w1 := after_request w (token_request self) (reply_elapsed reply) in
  match reply_outcome reply with
  | Raise e => (Raise e, w1)
  | Return response =>
      match raise_for_status response with
      | Raise e => (Raise e, w1)
      | Return _ =>
          match response_json response with
          | Raise e => (Raise e, w1)
          | Return body =>
              match as_dict body with
              | Raise e => (Raise e, w1)
              | Return token_data =>
                  match py_int env (dict_get "expires_in" (PyStr "3600") token_data) with
                  | Raise e => (Raise e, w1)
                  | Return expires_in =>
                      let record :=
                        dict_setitem "expires_at"
                          (PyFloat (w_time w1 + inject_Z expires_in)) token_data in
                      (dict_getitem "access_token" record,
                       mkWorld (store_token record (w_tm w1)) (w_time w1) (w_sent w1))
                  end
              end
          end
      end
  end.
Proof.
  intros Hmiss. unfold _get_access_token. py_unfold. rewrite Hmiss.
  cbv zeta. fold (token_request self).
  destruct (reply_outcome (transport env (w_sent w) (token_request self)))
    as [response | e]; [| reflexivity].
  destruct (raise_for_status response); [| reflexivity].
  destruct (response_json response) as [body | e]; [| reflexivity].
  destruct (as_dict body) as [token_data | e]; [| reflexivity].
  destruct (py_int env (dict_get "expires_in" (PyStr "3600") token_data));
    reflexivity.
Qed.

(** An error of the fetch is the error of [_ensure_valid_token]. *)
Lemma _ensure_valid_token_fetch_raises (w w1 : World TM) (e : Exn) :
  truthy (get_token (w_tm w) (w_time w)) = false ->
  _get_access_token env self w = (Raise e, w1) ->
  _ensure_valid_token env self w = (Raise e, w1).
Proof.
  intros Hmiss Hfetch. unfold _ensure_valid_token.
  unfold bind at 1. unfold tm_get_token at 1. rewrite Hmiss.
  unfold bind. now rewrite Hfetch.
Qed.

(** *** The three operations, unfolded after the token was obtained *)

Lemma put_forecast_run (eco_twin_id : string) (forecast : Forecast) (check : bool)
    (w w1 : World TM) (access_token : PyVal) :
  _ensure_valid_token env self w = (Return access_token, w1) ->
  put_forecast env self eco_twin_id forecast check w =
  let request :=
    forecast_request (py_format env access_token) eco_twin_id forecast check in
  let reply := transport env (w_sent w1) request in
  (match reply_outcome reply with
   | Raise e => Raise e
   | Return response =>
       match raise_for_status response with
       | Raise e => Raise e
       | Return _ => Return response
       end
   end,
   after_request w1 request (reply_elapsed reply)).
Proof.
  intros Htoken. unfold put_forecast. unfold bind at 1. rewrite Htoken.
  cbv zeta.
  replace (mkRequest PUT _ _ _)
    with (forecast_request (py_format env access_token) eco_twin_id forecast check).
  2:{ unfold forecast_request. destruct check; [| reflexivity].
      f_equal. now rewrite !string_append_assoc. }
  py_unfold. unfold after_request.
  destruct (reply_outcome _) as [response | e]; [| reflexivity].
  destruct (raise_for_status response); reflexivity.
Qed.

Lemma get_twin_status_run (eco_twin_id : string) (w w1 : World TM)
    (access_token : PyVal) :
  _ensure_valid_token env self w = (Return access_token, w1) ->
  get_twin_status env self eco_twin_id w =
  let request := twin_status_request (py_format env access_token) eco_twin_id in
  let reply := transport env (w_sent w1) request in
  (match reply_outcome reply with
   | Raise e => Raise e
   | Return response =>
       match raise_for_status response with
       | Raise e => Raise e
       | Return _ => response_json response
       end
   end,
   after_request w1 request (reply_elapsed reply)).
Proof.
  intros Htoken. unfold get_twin_status. unfold bind at 1. rewrite Htoken.
  cbv zeta. fold (twin_status_request (py_format env access_token) eco_twin_id).
  py_unfold. unfold after_request.
  destruct (reply_outcome _) as [response | e]; [| reflexivity].
  destruct (raise_for_status response); reflexivity.
Qed.

Lemma get_all_twins_status_run (w w1 : World TM) (access_token : PyVal) :
  _ensure_valid_token env self w = (Return access_token, w1) ->
  get_all_twins_status env self w =
  let request := all_status_request (py_format env access_token) in
  let reply := transport env (w_sent w1) request in
  (match reply_outcome reply with
   | Raise e => Raise e
   | Return response =>
       match raise_for_status response with
       | Raise e => Raise e
       | Return _ => response_json response
       end
   end,
   after_request w1 request (reply_elapsed reply)).
Proof.
  intros Htoken. unfold get_all_twins_status. unfold bind at 1. rewrite Htoken.
  cbv zeta. fold (all_status_request (py_format env access_token)).
  py_unfold. unfold after_request.
  destruct (reply_outcome _) as [response | e]; [| reflexivity].
  destruct (raise_for_status response); reflexivity.
Qed.

(** A failure to obtain the token is the failure of the operation. *)
Lemma operations_propagate (w w1 : World TM) (e : Exn) :
  _ensure_valid_token env self w = (Raise e, w1) ->
  (forall eco_twin_id forecast check,
      put_forecast env self eco_twin_id forecast check w = (Raise e, w1))
  /\ (forall eco_twin_id, get_twin_status env self eco_twin_id w = (Raise e, w1))
  /\ get_all_twins_status env self w = (Raise e, w1).
Proof.
  intros Htoken. repeat split; intros;
    unfold put_forecast, get_twin_status, get_all_twins_status;
    unfold bind at 1; now rewrite Htoken.
Qed.

(** None of the three operations addresses the identity endpoint. *)
Lemma forecast_request_not_identity (bearer eco_twin_id : string) (forecast : Forecast)
    (check : bool) (sent : list Request) :
  identity_calls (forecast_request bearer eco_twin_id forecast check :: sent)
    = identity_calls sent.
Proof. now destruct check. Qed.

Lemma twin_status_request_not_identity (bearer eco_twin_id : string)
    (sent : list Request) :
  identity_calls (twin_status_request bearer eco_twin_id :: sent) = identity_calls sent.
Proof. reflexivity. Qed.

Lemma all_status_request_not_identity (bearer : string) (sent : list Request) :
  identity_calls (all_status_request bearer :: sent) = identity_calls sent.
Proof. reflexivity. Qed.

(** C4: when the token manager hands out a cached record carrying an
    access token, [_ensure_valid_token] returns that token and leaves the
    world as it was (no request is sent, the stored token is untouched);
    hence [put_forecast], [get_twin_status] and [get_all_twins_status]
    send nothing to the identity endpoint and leave the token manager
    unchanged.  That the record has not expired is not even needed. *)
Theorem cached_token_is_reused (w : World TM) (token_data : Dict PyVal)
    (access_token : PyVal) :
  get_token (w_tm w) (w_time w) = Some token_data ->
  dict_lookup "access_token" token_data = Some access_token ->
  _ensure_valid_token env self w = (Return access_token, w)
  /\ (forall eco_twin_id forecast check,
        let w' := snd (put_forecast env self eco_twin_id forecast check w) in
        w_tm w' = w_tm w /\ identity_calls (w_sent w') = identity_calls (w_sent w))
  /\ (forall eco_twin_id,
        let w' := snd (get_twin_status env self eco_twin_id w) in
        w_tm w' = w_tm w /\ identity_calls (w_sent w') = identity_calls (w_sent w))
  /\ (let w' := snd (get_all_twins_status env self w) in
      w_tm w' = w_tm w /\ identity_calls (w_sent w') = identity_calls (w_sent w)).
Proof.
  intros Hget Hkey.
  pose proof (_ensure_valid_token_cached w token_data access_token Hget Hkey) as Htoken.
  split; [exact Htoken |]. split; [| split].
  - intros eco_twin_id forecast check. cbv zeta.
    rewrite (put_forecast_run _ _ _ _ _ _ Htoken).
    split; [reflexivity | apply forecast_request_not_identity].
  - intros eco_twin_id. cbv zeta.
    rewrite (get_twin_status_run _ _ _ _ Htoken).
    split; [reflexivity | apply twin_status_request_not_identity].
  - cbv zeta. rewrite (get_all_twins_status_run _ _ _ Htoken).
    split; [reflexivity | apply all_status_request_not_identity].
Qed.


(** C6: once [_ensure_valid_token] has produced the token, [put_forecast]
    sends one PUT whose URL is the twin's forecast URL, with [?check]
    appended exactly when [check] is true, and whose [Authorization]
    header is ["Bearer "] followed by that token. *)
Theorem put_forecast_request (eco_twin_id : string) (forecast : Forecast)
    (check : bool) (w w1 : World TM) (access_token : PyVal) :
  _ensure_valid_token env self w = (Return access_token, w1) ->
  exists request,
    w_sent (snd (put_forecast env self eco_twin_id forecast check w))
      = request :: w_sent w1
    /\ req_method request = PUT
    /\ req_url request
       = (if check
          then "https://energyoptimizer.azure-api.net/eco/v2/twins/" ++ eco_twin_id
                 ++ "/forecast/external?check"
          else "https://energyoptimizer.azure-api.net/eco/v2/twins/" ++ eco_twin_id
                 ++ "/forecast/external")
    /\ dict_lookup "Authorization" (req_headers request)
       = Some ("Bearer " ++ py_format env access_token)
    /\ req_payload request = JsonBody forecast.
Proof.
  intros Htoken. rewrite (put_forecast_run _ _ _ _ _ _ Htoken).
  eexists. repeat split.
Qed.

(** C7, amended: every HTTP operation raises [HTTPError] to its caller
    when the response status is 4xx or 5xx, the statuses
    [raise_for_status] rejects, having sent that request once and nothing
    after it; a failed token request fails [_ensure_valid_token] and each
    of the three operations in the same way.  On a 2xx response
    [put_forecast] returns the response, and [get_twin_status] and
    [get_all_twins_status] return the JSON value the body parses to. *)
Theorem http_errors_propagate (w : World TM) :
  (forall response elapsed,
      truthy (get_token (w_tm w) (w_time w)) = false ->
      transport env (w_sent w) (token_request self) = mkReply (Return response) elapsed ->
      400 <= status_code response < 600 ->
      let e := HTTPError (status_code response) in
      let w' := after_request w (token_request self) elapsed in
      _get_access_token env self w = (Raise e, w')
      /\ _ensure_valid_token env self w = (Raise e, w')
      /\ (forall eco_twin_id forecast check,
            put_forecast env self eco_twin_id forecast check w = (Raise e, w'))
      /\ (forall eco_twin_id, get_twin_status env self eco_twin_id w = (Raise e, w'))
      /\ get_all_twins_status env self w = (Raise e, w'))
  /\ (forall access_token w1 response elapsed,
        _ensure_valid_token env self w = (Return access_token, w1) ->
        let bearer := py_format env access_token in
        (forall eco_twin_id forecast check,
            let request := forecast_request bearer eco_twin_id forecast check in
            transport env (w_sent w1) request = mkReply (Return response) elapsed ->
            (400 <= status_code response < 600 ->
             put_forecast env self eco_twin_id forecast check w
               = (Raise (HTTPError (status_code response)),
                  after_request w1 request elapsed))
            /\ (200 <= status_code response < 300 ->
                put_forecast env self eco_twin_id forecast check w
                  = (Return response, after_request w1 request elapsed)))
        /\ (forall eco_twin_id,
              let request := twin_status_request bearer eco_twin_id in
              transport env (w_sent w1) request = mkReply (Return response) elapsed ->
              (400 <= status_code response < 600 ->
               get_twin_status env self eco_twin_id w
                 = (Raise (HTTPError (status_code response)),
                    after_request w1 request elapsed))
              /\ (200 <= status_code response < 300 ->
                  forall body,
                    resp_json response = Some body ->
                    get_twin_status env self eco_twin_id w
                      = (Return body, after_request w1 request elapsed)))
        /\ (let request := all_status_request bearer in
            transport env (w_sent w1) request = mkReply (Return response) elapsed ->
            (400 <= status_code response < 600 ->
             get_all_twins_status env self w
               = (Raise (HTTPError (status_code response)),
                  after_request w1 request elapsed))
            /\ (200 <= status_code response < 300 ->
                forall body,
                  resp_json response = Some body ->
                  get_all_twins_status env self w
                    = (Return body, after_request w1 request elapsed)))).
Proof.
  split.
  - intros response elapsed Hmiss Hreply Hstatus e w'.
    assert (Hfetch : _get_access_token env self w = (Raise e, w')).
    { rewrite (_get_access_token_fetch w Hmiss), Hreply.
      cbn [reply_outcome reply_elapsed].
      now rewrite (raise_for_status_error response Hstatus). }
    pose proof (_ensure_valid_token_fetch_raises w w' e Hmiss Hfetch) as Htoken.
    split; [exact Hfetch |]. split; [exact Htoken |].
    exact (operations_propagate w w' e Htoken).
  - intros access_token w1 response elapsed Htoken bearer. split; [| split].
    + intros eco_twin_id forecast check request Hreply.
      rewrite (put_forecast_run _ _ _ _ _ _ Htoken). cbv zeta.
      fold bearer. fold request. rewrite Hreply. cbn [reply_outcome reply_elapsed].
      split; intros Hstatus.
      * now rewrite (raise_for_status_error response Hstatus).
      * now rewrite raise_for_status_pass by lia.
    + intros eco_twin_id request Hreply.
      rewrite (get_twin_status_run _ _ _ _ Htoken). cbv zeta.
      fold bearer. fold request. rewrite Hreply. cbn [reply_outcome reply_elapsed].
      split; intros Hstatus.
      * now rewrite (raise_for_status_error response Hstatus).
      * intros body Hbody. rewrite raise_for_status_pass by lia.
        unfold response_json. now rewrite Hbody.
    + intros request Hreply.
      rewrite (get_all_twins_status_run _ _ _ Htoken). cbv zeta.
      fold bearer. fold request. rewrite Hreply. cbn [reply_outcome reply_elapsed].
      split; intros Hstatus.
      * now rewrite (raise_for_status_error response Hstatus).
      * intros body Hbody. rewrite raise_for_status_pass by lia.
        unfold response_json. now rewrite Hbody.
Qed.
End ClientFacts.

(** *** Concrete runs of the token logic and of the operations *)

Lemma cached_token_is_reused_witness :
  _ensure_valid_token (Sample.answering 200 None) Sample.self Sample.w_cached
    = (Return (PyStr "cached"), Sample.w_cached)
  /\ identity_calls
       (w_sent (snd (get_all_twins_status (Sample.answering 200 None) Sample.self
                       Sample.w_cached)))
     = identity_calls (w_sent Sample.w_cached).
Proof.
  assert (Hget : get_token (w_tm Sample.w_cached) (w_time Sample.w_cached)
                 = Some (Sample.stored_token 5000%Q)) by reflexivity.
  assert (Hkey : dict_lookup "access_token" (Sample.stored_token 5000%Q)
                 = Some (PyStr "cached")) by reflexivity.
  destruct (cached_token_is_reused (Sample.answering 200 None) Sample.self
              Sample.w_cached (Sample.stored_token 5000%Q) (PyStr "cached")
              Hget Hkey) as (Hsame & _ & _ & _ & Hcalls).
  split; [exact Hsame | exact Hcalls].
Defined.


Lemma put_forecast_request_witness :
  exists request,
    w_sent (snd (put_forecast (Sample.answering 200 None) Sample.self "tw"
                   Sample.forecast true Sample.w_cached))
      = request :: w_sent Sample.w_cached
    /\ req_method request = PUT
    /\ req_url request
       = "https://energyoptimizer.azure-api.net/eco/v2/twins/tw/forecast/external?check"
    /\ dict_lookup "Authorization" (req_headers request) = Some "Bearer cached"
    /\ req_payload request = JsonBody Sample.forecast.
Proof.
  apply (put_forecast_request (Sample.answering 200 None) Sample.self "tw"
           Sample.forecast true Sample.w_cached Sample.w_cached (PyStr "cached")).
  reflexivity.
Defined.

Lemma http_errors_propagate_witness :
  _ensure_valid_token (Sample.answering 401 None) Sample.self Sample.w_empty
    = (Raise (HTTPError 401),
       after_request Sample.w_empty (token_request Sample.self) 1%Q)
  /\ get_twin_status (Sample.answering 503 None) Sample.self "tw" Sample.w_cached
     = (Raise (HTTPError 503),
        after_request Sample.w_cached (twin_status_request "cached" "tw") 1%Q).
Proof.
  split.
  - assert (Hmiss : truthy (get_token (w_tm Sample.w_empty) (w_time Sample.w_empty))
                    = false) by reflexivity.
    assert (Hstatus : 400 <= status_code (mkResponse 401 None) < 600) by (simpl; lia).
    destruct (proj1 (http_errors_propagate (Sample.answering 401 None) Sample.self
                       Sample.w_empty)
                (mkResponse 401 None) 1%Q Hmiss eq_refl Hstatus)
      as (_ & Htoken & _).
    exact Htoken.
  - assert (Htoken : _ensure_valid_token (Sample.answering 503 None) Sample.self
                       Sample.w_cached
                     = (Return (PyStr "cached"), Sample.w_cached)) by reflexivity.
    assert (Hstatus : 400 <= status_code (mkResponse 503 None) < 600) by (simpl; lia).
    destruct (proj2 (http_errors_propagate (Sample.answering 503 None) Sample.self
                       Sample.w_cached)
                (PyStr "cached") Sample.w_cached (mkResponse 503 None) 1%Q Htoken)
      as (_ & Hget & _).
    exact (proj1 (Hget "tw" eq_refl) Hstatus).
Defined.

(** C7 as stated fails: a 304 answer is not a 2xx answer, yet
    [raise_for_status] lets it pass and [get_twin_status] returns the body
    instead of raising. *)
Lemma get_twin_status_304_counterexample :
  ~ (forall response elapsed,
        transport (Sample.answering 304 (Some (PyDict []))) (w_sent Sample.w_cached)
          (twin_status_request "cached" "tw")
          = mkReply (Return response) elapsed ->
        ~ 200 <= status_code response < 300 ->
        exists e,
          fst (get_twin_status (Sample.answering 304 (Some (PyDict []))) Sample.self
                 "tw" Sample.w_cached)
            = Raise e).
Proof.
  intros Hclaim.
  destruct (Hclaim (mkResponse 304 (Some (PyDict []))) 1%Q eq_refl) as [e He].
  - simpl. lia.
  - vm_compute in He. discriminate.
Qed.


(** * Further properties *)

(** ** [create_eco_forecast] *)

Lemma check_lengths_app (before after : Dict (list Q)) (min_length : Z) :
  all_long min_length before ->
  check_lengths (before ++ after)%list min_length = check_lengths after min_length.
Proof.
  unfold all_long. induction 1 as [| [io_name values] rest Hlen _ IH]; simpl.
  - reflexivity.
  - simpl in Hlen. apply Z.ltb_ge in Hlen. now rewrite Hlen.
Qed.

Lemma int_of_float_floor (q : Q) :
  (0 <= q)%Q ->
  (inject_Z (int_of_float q) <= q)%Q /\ (q < inject_Z (int_of_float q + 1))%Q.
Proof.
  destruct q as [num den]. unfold Qle, Qlt, int_of_float. simpl.
  intros Hnum. rewrite Z.mul_1_r in Hnum |- *.
  rewrite Z.quot_div_nonneg by lia.
  pose proof (Z.div_mod num (Zpos den) ltac:(lia)) as Hdm.
  pose proof (Z.mod_pos_bound num (Zpos den) ltac:(lia)) as Hr.
  split; nia.
Qed.

Section ForecastMore.
Context {TM : Type}.
Variables (self : EcoTwinAPIClient) (project_id : string).
Variable w : World TM.

(** X1: whatever its arguments and whatever its outcome,
    [create_eco_forecast] leaves the world alone: it sends no request and
    does not touch the token manager. *)
Theorem create_eco_forecast_is_local (virtual_io_values : Dict (list Q)) (interval : Z) :
  snd (create_eco_forecast self project_id virtual_io_values interval w) = w.
Proof.
  rewrite create_eco_forecast_eq.
  destruct (interval =? 0); [reflexivity |].
  destruct (check_lengths virtual_io_values (86400 / interval)); reflexivity.
Qed.

(** X2: the validation error names the first channel, in the order of the
    mapping, that is too short, and quotes the minimum [86400 // interval];
    channels after it are not looked at. *)
Theorem create_eco_forecast_names_first_short_channel
    (before after : Dict (list Q)) (io_name : string) (values : list Q) (interval : Z) :
  interval <> 0 ->
  all_long (86400 / interval) before ->
  Z.of_nat (List.length values) < 86400 / interval ->
  create_eco_forecast self project_id (before ++ (io_name, values) :: after)%list interval w
  = (Raise (ValueError ("VirtualIO " ++ io_name ++ " must have at least "
                          ++ str_of_int (86400 / interval) ++ " values")), w).
Proof.
  intros Hnz Hbefore Hshort. rewrite create_eco_forecast_eq.
  apply Z.eqb_neq in Hnz. rewrite Hnz.
  rewrite (check_lengths_app before _ _ Hbefore). simpl.
  apply Z.ltb_lt in Hshort. now rewrite Hshort.
Qed.

(** X3: an interval longer than a day makes the minimum zero, so every
    channel mapping is accepted, empty channels included. *)
Theorem create_eco_forecast_long_interval (virtual_io_values : Dict (list Q))
    (interval : Z) :
  86400 < interval ->
  exists forecast,
    create_eco_forecast self project_id virtual_io_values interval w
      = (Return forecast, w)
    /\ y (timeseries forecast) = virtual_io_values.
Proof.
  intros Hlong. rewrite create_eco_forecast_eq.
  replace (interval =? 0) with false by (symmetry; apply Z.eqb_neq; lia).
  rewrite (Z.div_small 86400 interval) by lia.
  assert (Hok : check_lengths virtual_io_values 0 = Return tt).
  { apply check_lengths_Return, all_long_not_short.
    intros (io_name & values & _ & Hlt). lia. }
  rewrite Hok. eexists. split; reflexivity.
Qed.

(** X4: for a positive interval every channel of an accepted forecast spans
    more than a day less one interval, and a full day when the interval
    divides 86400. *)
Theorem create_eco_forecast_day_coverage (virtual_io_values : Dict (list Q))
    (interval : Z) (forecast : Forecast) (w' : World TM) :
  0 < interval ->
  create_eco_forecast self project_id virtual_io_values interval w
    = (Return forecast, w') ->
  Forall (fun kv => 86400 - interval < Z.of_nat (List.length (snd kv)) * interval)
    (y (timeseries forecast))
  /\ (86400 mod interval = 0 ->
      Forall (fun kv => 86400 <= Z.of_nat (List.length (snd kv)) * interval)
        (y (timeseries forecast))).
Proof.
  intros Hpos. rewrite create_eco_forecast_eq.
  replace (interval =? 0) with false by (symmetry; apply Z.eqb_neq; lia).
  destruct (check_lengths virtual_io_values (86400 / interval)) as [[] | e] eqn:Hcheck;
    [| discriminate].
  intros Heq. injection Heq as <- _. cbn [y timeseries].
  apply check_lengths_Return in Hcheck. unfold all_long in Hcheck.
  pose proof (Z.div_mod 86400 interval ltac:(lia)) as Hdm.
  pose proof (Z.mod_pos_bound 86400 interval Hpos) as Hr.
  revert Hcheck Hdm Hr.
  generalize (86400 / interval) (86400 mod interval). intros q r Hcheck Hdm Hr.
  split; [| intros Hdiv];
    (eapply Forall_impl; [| exact Hcheck]); intros kv Hkv; cbv beta in Hkv;
    assert (q * interval <= Z.of_nat (List.length (snd kv)) * interval)
      by (apply Z.mul_le_mono_nonneg_r; lia);
    lia.
Qed.

(** X5: when the clock is at or after the epoch, [start_t] is the clock
    reading rounded down to whole seconds. *)
Theorem create_eco_forecast_start_t (virtual_io_values : Dict (list Q))
    (interval : Z) (forecast : Forecast) (w' : World TM) :
  (0 <= w_time w)%Q ->
  create_eco_forecast self project_id virtual_io_values interval w
    = (Return forecast, w') ->
  (inject_Z (start_t (header forecast)) <= w_time w)%Q
  /\ (w_time w < inject_Z (start_t (header forecast) + 1))%Q.
Proof.
  intros Hepoch. rewrite create_eco_forecast_eq.
  destruct (interval =? 0); [discriminate |].
  destruct (check_lengths virtual_io_values (86400 / interval)); [| discriminate].
  intros Heq. injection Heq as <- _. simpl. now apply int_of_float_floor.
Qed.

(** X24: lengthening the interval never turns an accepted mapping into a
    refused one: what passes at a positive interval passes at every longer
    interval. *)
Theorem create_eco_forecast_longer_interval (virtual_io_values : Dict (list Q))
    (interval interval' : Z) (forecast : Forecast) (w' : World TM) :
  0 < interval <= interval' ->
  create_eco_forecast self project_id virtual_io_values interval w
    = (Return forecast, w') ->
  exists forecast',
    create_eco_forecast self project_id virtual_io_values interval' w
      = (Return forecast', w).
Proof.
  intros Horder. rewrite !create_eco_forecast_eq.
  replace (interval =? 0) with false by (symmetry; apply Z.eqb_neq; lia).
  replace (interval' =? 0) with false by (symmetry; apply Z.eqb_neq; lia).
  destruct (check_lengths virtual_io_values (86400 / interval)) as [[] | e] eqn:Hcheck;
    [| discriminate].
  intros _.
  assert (Hok : check_lengths virtual_io_values (86400 / interval') = Return tt).
  { apply check_lengths_Return. apply check_lengths_Return in Hcheck.
    unfold all_long in *. eapply Forall_impl; [| exact Hcheck].
    intros kv Hkv. cbv beta in Hkv.
    pose proof (Z.div_le_compat_l 86400 interval interval' ltac:(lia) ltac:(lia)).
    lia. }
  rewrite Hok. eexists. reflexivity.
Qed.
End ForecastMore.

Lemma create_eco_forecast_names_first_short_channel_witness :
  create_eco_forecast Sample.self "p"
    ([("a", repeat 0%Q 288)] ++ ("b", [1%Q]) :: [("c", [])])%list 300 Sample.w_empty
  = (Raise (ValueError "VirtualIO b must have at least 288 values"), Sample.w_empty).
Proof.
  apply (create_eco_forecast_names_first_short_channel Sample.self "p" Sample.w_empty
           [("a", repeat 0%Q 288)] [("c", [])] "b" [1%Q] 300).
  - lia.
  - constructor; [| constructor]. cbn [snd]. rewrite repeat_length.
    vm_compute. discriminate.
  - vm_compute. reflexivity.
Defined.

Lemma create_eco_forecast_long_interval_witness :
  exists forecast,
    create_eco_forecast Sample.self "p" [("a", [])] 100000 Sample.w_empty
      = (Return forecast, Sample.w_empty)
    /\ y (timeseries forecast) = [("a", [])].
Proof.
  apply (create_eco_forecast_long_interval Sample.self "p" Sample.w_empty
           [("a", [])] 100000).
  lia.
Defined.

Lemma create_eco_forecast_day_coverage_witness :
  Forall (fun kv => 86400 - 43200 < Z.of_nat (List.length (snd kv)) * 43200)
    [("a", [0%Q; 1%Q])]
  /\ (86400 mod 43200 = 0 ->
      Forall (fun kv => 86400 <= Z.of_nat (List.length (snd kv)) * 43200)
        [("a", [0%Q; 1%Q])]).
Proof.
  apply (create_eco_forecast_day_coverage Sample.self "p" Sample.w_empty
           [("a", [0%Q; 1%Q])] 43200
           (mkForecast (mkHeader "p" 43200 1000) (mkTimeseries [("a", [0%Q; 1%Q])] []))
           Sample.w_empty).
  - lia.
  - reflexivity.
Defined.

Lemma create_eco_forecast_start_t_witness :
  (inject_Z 1000 <= 2001 # 2)%Q /\ (2001 # 2 < inject_Z (1000 + 1))%Q.
Proof.
  apply (create_eco_forecast_start_t Sample.self "p"
           (mkWorld (w_tm Sample.w_empty) (2001 # 2)%Q []) [] 300
           (mkForecast (mkHeader "p" 300 1000) (mkTimeseries [] []))
           (mkWorld (w_tm Sample.w_empty) (2001 # 2)%Q [])).
  - vm_compute. discriminate.
  - reflexivity.
Defined.

Lemma create_eco_forecast_longer_interval_witness :
  exists forecast',
    create_eco_forecast Sample.self "p" [("a", [0%Q; 1%Q])] 50000 Sample.w_empty
      = (Return forecast', Sample.w_empty).
Proof.
  refine (create_eco_forecast_longer_interval Sample.self "p" Sample.w_empty
            [("a", [0%Q; 1%Q])] 43200 50000
            (mkForecast (mkHeader "p" 43200 1000) (mkTimeseries [("a", [0%Q; 1%Q])] []))
            Sample.w_empty _ _).
  - lia.
  - reflexivity.
Defined.

(** ** Token acquisition *)

Section TokenMore.
Context {TM : Type} `{TokenManager TM}.
Variable env : Environment.
Variable self : EcoTwinAPIClient.

(** On a miss [_ensure_valid_token] is the fetch followed by a second look
    into the token manager. *)
Lemma _ensure_valid_token_miss (w : World TM) :
  truthy (get_token (w_tm w) (w_time w)) = false ->
  _ensure_valid_token env self w =
  match _get_access_token env self w with
  | (Return _, w1) => (subscript "access_token" (get_token (w_tm w1) (w_time w1)), w1)
  | (Raise e, w1) => (Raise e, w1)
  end.
Proof.
  intros Hmiss. unfold _ensure_valid_token.
  unfold bind at 1. unfold tm_get_token at 1. rewrite Hmiss.
  unfold bind, tm_get_token, lift.
  destruct (_get_access_token env self w) as [[access_token | e] w1]; reflexivity.
Qed.

(** The fetch, whatever comes of it, appends the token request and nothing
    else to the requests sent. *)
Lemma _get_access_token_fetch_sent (w : World TM) :
  truthy (get_token (w_tm w) (w_time w)) = false ->
  w_sent (snd (_get_access_token env self w)) = token_request self :: w_sent w.
Proof.
  intros Hmiss. rewrite (_get_access_token_fetch env self w Hmiss). cbv zeta.
  destruct (reply_outcome _) as [response | e]; [| reflexivity].
  destruct (raise_for_status response); [| reflexivity].
  destruct (response_json response) as [body | e]; [| reflexivity].
  destruct (as_dict body) as [token_data | e]; [| reflexivity].
  destruct (py_int env _); reflexivity.
Qed.

(** X6: a cached record that is not empty but has no [access_token] makes
    every entry point fail with [KeyError] on the spot: nothing is fetched
    to repair it, and the world is left as it was. *)
Theorem cached_record_without_access_token (w : World TM) (token_data : Dict PyVal) :
  get_token (w_tm w) (w_time w) = Some token_data ->
  token_data <> [] ->
  dict_lookup "access_token" token_data = None ->
  _get_access_token env self w = (Raise (KeyError "access_token"), w)
  /\ _ensure_valid_token env self w = (Raise (KeyError "access_token"), w)
  /\ (forall eco_twin_id forecast check,
        put_forecast env self eco_twin_id forecast check w
          = (Raise (KeyError "access_token"), w))
  /\ (forall eco_twin_id,
        get_twin_status env self eco_twin_id w = (Raise (KeyError "access_token"), w))
  /\ get_all_twins_status env self w = (Raise (KeyError "access_token"), w).
Proof.
  intros Hget Hne Hkey.
  assert (Htoken : _ensure_valid_token env self w = (Raise (KeyError "access_token"), w)).
  { unfold _ensure_valid_token. py_unfold. rewrite Hget.
    destruct token_data as [| kv rest]; [contradiction |].
    cbn [truthy subscript]. unfold dict_getitem. now rewrite Hkey. }
  split; [| split; [exact Htoken | exact (operations_propagate env self w w _ Htoken)]].
  unfold _get_access_token. py_unfold. rewrite Hget.
  destruct token_data as [| kv rest]; [contradiction |].
  cbn [truthy subscript]. unfold dict_getitem. now rewrite Hkey.
Qed.

(** X7: on a miss, which is a manager answering [None] or an empty record,
    exactly one request goes out, the POST to the identity endpoint,
    whatever the endpoint answers. *)
Theorem cache_miss_sends_one_identity_request (w : World TM) :
  truthy (get_token (w_tm w) (w_time w)) = false ->
  w_sent (snd (_get_access_token env self w)) = token_request self :: w_sent w
  /\ w_sent (snd (_ensure_valid_token env self w)) = token_request self :: w_sent w.
Proof.
  intros Hmiss.
  pose proof (_get_access_token_fetch_sent w Hmiss) as Hsent.
  split; [exact Hsent |].
  rewrite (_ensure_valid_token_miss w Hmiss).
  destruct (_get_access_token env self w) as [[access_token | e] w1]; exact Hsent.
Qed.


(** X9: a fetch that fails leaves the token manager holding what it held,
    unless the failure is the missing [access_token] of an answer already
    stored. *)
Theorem failed_fetch_stores_nothing (w w' : World TM) (e : Exn) :
  truthy (get_token (w_tm w) (w_time w)) = false ->
  _get_access_token env self w = (Raise e, w') ->
  e <> KeyError "access_token" ->
  w_tm w' = w_tm w.
Proof.
  intros Hmiss. rewrite (_get_access_token_fetch env self w Hmiss). cbv zeta.
  destruct (reply_outcome _) as [response | e0];
    [| now intros Heq; injection Heq as _ <-].
  destruct (raise_for_status response);
    [| now intros Heq; injection Heq as _ <-].
  destruct (response_json response) as [body | e0];
    [| now intros Heq; injection Heq as _ <-].
  destruct (as_dict body) as [token_data | e0];
    [| now intros Heq; injection Heq as _ <-].
  destruct (py_int env _) as [expires_in | e0];
    [| now intros Heq; injection Heq as _ <-].
  unfold dict_getitem.
  destruct (dict_lookup "access_token" _); [discriminate |].
  intros Heq. injection Heq as <- _. contradiction.
Qed.


(** X11: an answer that passes the status check but is not JSON fails with
    [JSONDecodeError], and one that is JSON but not an object with
    [AttributeError]; in both cases the request was sent and nothing was
    stored. *)
Theorem answer_not_an_object (w : World TM) (response : Response) (elapsed : Q) :
  truthy (get_token (w_tm w) (w_time w)) = false ->
  transport env (w_sent w) (token_request self) = mkReply (Return response) elapsed ->
  ~ 400 <= status_code response < 600 ->
  (resp_json response = None ->
   _get_access_token env self w
   = (Raise JSONDecodeError, after_request w (token_request self) elapsed))
  /\ (forall body,
        resp_json response = Some body ->
        (forall token_data, body <> PyDict token_data) ->
        _get_access_token env self w
        = (Raise AttributeError, after_request w (token_request self) elapsed)).
Proof.
  intros Hmiss Hreply Hstatus.
  rewrite (_get_access_token_fetch env self w Hmiss), Hreply.
  cbn [reply_outcome reply_elapsed].
  rewrite (raise_for_status_pass response Hstatus). unfold response_json.
  split.
  - intros Hjson. now rewrite Hjson.
  - intros body Hjson Hshape. rewrite Hjson.
    destruct body; try reflexivity. now contradiction (Hshape d).
Qed.


End TokenMore.

(** ** Fetching through [_ensure_valid_token], and the operations *)

Section OperationsMore.
Context {TM : Type} `{TokenManager TM}.
Variable env : Environment.
Variable self : EcoTwinAPIClient.




(** X15: if the token manager has no token to show right after the fetch
    stored one, [_ensure_valid_token] fails with [TypeError] instead of
    returning the token the fetch obtained, and so does every operation. *)
Theorem forgotten_token_raises_TypeError (w w1 : World TM) (access_token : PyVal) :
  truthy (get_token (w_tm w) (w_time w)) = false ->
  _get_access_token env self w = (Return access_token, w1) ->
  get_token (w_tm w1) (w_time w1) = None ->
  _ensure_valid_token env self w = (Raise TypeError, w1)
  /\ (forall eco_twin_id forecast check,
        put_forecast env self eco_twin_id forecast check w = (Raise TypeError, w1))
  /\ (forall eco_twin_id,
        get_twin_status env self eco_twin_id w = (Raise TypeError, w1))
  /\ get_all_twins_status env self w = (Raise TypeError, w1).
Proof.
  intros Hmiss Hfetch Hgone.
  assert (Htoken : _ensure_valid_token env self w = (Raise TypeError, w1)).
  { rewrite (_ensure_valid_token_miss env self w Hmiss), Hfetch. now rewrite Hgone. }
  split; [exact Htoken | exact (operations_propagate env self w w1 _ Htoken)].
Qed.

End OperationsMore.

(** ** What goes on the wire *)

Section Wire.
Context {TM : Type} `{TokenManager TM}.
Variable env : Environment.
Variable self : EcoTwinAPIClient.

(** What [_ensure_valid_token] can do to the world: nothing, or one token
    request, after which the token manager holds what it held or what
    [store_token] made of it. *)
Lemma _ensure_valid_token_effect (w : World TM) :
  let w1 := snd (_ensure_valid_token env self w) in
  (w_sent w1 = w_sent w \/ w_sent w1 = token_request self :: w_sent w)
  /\ (w_tm w1 = w_tm w \/ exists record, w_tm w1 = store_token record (w_tm w)).
Proof.
  cbv zeta.
  destruct (truthy (get_token (w_tm w) (w_time w))) eqn:Hhit.
  - unfold _ensure_valid_token. py_unfold. rewrite Hhit.
    destruct (subscript "access_token" _); cbn [snd]; auto.
  - split.
    + right. rewrite (_ensure_valid_token_miss env self w Hhit). pose proof (_get_access_token_fetch_sent env self w Hhit) as Hsent. destruct (_get_access_token env self w) as [[access_token | e] w1]; exact Hsent.
    + rewrite (_ensure_valid_token_miss env self w Hhit).
      assert (Hfetch : w_tm (snd (_get_access_token env self w)) = w_tm w
                       \/ exists record,
                            w_tm (snd (_get_access_token env self w))
                            = store_token record (w_tm w)).
      { rewrite (_get_access_token_fetch env self w Hhit). cbv zeta.
        destruct (reply_outcome _) as [response | e]; [| now left].
        destruct (raise_for_status response); [| now left].
        destruct (response_json response) as [body | e]; [| now left].
        destruct (as_dict body) as [token_data | e]; [| now left].
        destruct (py_int env _); [| now left].
        right. eexists. reflexivity. }
      destruct (_get_access_token env self w) as [[access_token | e] w1]; exact Hfetch.
Qed.

(** The world after an operation: the one [_ensure_valid_token] left, plus
    the operation's own request when the token was obtained. *)
Lemma operations_effect (w : World TM) :
  let w1 := snd (_ensure_valid_token env self w) in
  (forall eco_twin_id forecast check,
      let w2 := snd (put_forecast env self eco_twin_id forecast check w) in
      w_tm w2 = w_tm w1
      /\ (w_sent w2 = w_sent w1
          \/ exists bearer,
               w_sent w2 = forecast_request bearer eco_twin_id forecast check :: w_sent w1))
  /\ (forall eco_twin_id,
        let w2 := snd (get_twin_status env self eco_twin_id w) in
        w_tm w2 = w_tm w1
        /\ (w_sent w2 = w_sent w1
            \/ exists bearer,
                 w_sent w2 = twin_status_request bearer eco_twin_id :: w_sent w1))
  /\ (let w2 := snd (get_all_twins_status env self w) in
      w_tm w2 = w_tm w1
      /\ (w_sent w2 = w_sent w1
          \/ exists bearer, w_sent w2 = all_status_request bearer :: w_sent w1)).
Proof.
  cbv zeta.
  destruct (_ensure_valid_token env self w) as [[access_token | e] w1] eqn:Htoken.
  - split; [| split]; intros.
    + rewrite (put_forecast_run env self _ _ _ _ _ _ Htoken).
      split; [reflexivity | right; eexists; reflexivity].
    + rewrite (get_twin_status_run env self _ _ _ _ Htoken).
      split; [reflexivity | right; eexists; reflexivity].
    + rewrite (get_all_twins_status_run env self _ _ _ Htoken).
      split; [reflexivity | right; eexists; reflexivity].
  - destruct (operations_propagate env self w w1 e Htoken) as (Hput & Hget & Hall).
    split; [| split]; intros.
    + rewrite Hput. split; [reflexivity | now left].
    + rewrite Hget. split; [reflexivity | now left].
    + rewrite Hall. split; [reflexivity | now left].
Qed.

Lemma one_operation_intro (api : Request -> Prop) (before mid after : list Request) :
  mid = before \/ mid = token_request self :: before ->
  after = mid \/ (exists r, api r /\ after = r :: mid) ->
  one_operation self api before after.
Proof.
  unfold one_operation. intros [-> | ->] [-> | (r & Hr & ->)]; eauto 6.
Qed.

(** X17: no operation retries or repeats itself: a call sends nothing, or
    the token request, or its own request, or the token request followed
    by its own request, and never anything else. *)
Theorem operations_send_at_most_two_requests (w : World TM) :
  (forall eco_twin_id forecast check,
      one_operation self
        (fun r => exists bearer, r = forecast_request bearer eco_twin_id forecast check)
        (w_sent w) (w_sent (snd (put_forecast env self eco_twin_id forecast check w))))
  /\ (forall eco_twin_id,
        one_operation self
          (fun r => exists bearer, r = twin_status_request bearer eco_twin_id)
          (w_sent w) (w_sent (snd (get_twin_status env self eco_twin_id w))))
  /\ one_operation self (fun r => exists bearer, r = all_status_request bearer)
       (w_sent w) (w_sent (snd (get_all_twins_status env self w))).
Proof.
  destruct (_ensure_valid_token_effect w) as [Hsent _].
  destruct (operations_effect w) as (Hput & Hget & Hall). cbv zeta in *.
  split; [| split]; intros.
  - apply (one_operation_intro _ _ _ _ Hsent).
    destruct (Hput eco_twin_id forecast check) as [_ [-> | [bearer ->]]]; eauto.
  - apply (one_operation_intro _ _ _ _ Hsent).
    destruct (Hget eco_twin_id) as [_ [-> | [bearer ->]]]; eauto.
  - apply (one_operation_intro _ _ _ _ Hsent).
    destruct Hall as [_ [-> | [bearer ->]]]; eauto.
Qed.

(** X18: the token manager is written to by [store_token] only: after
    [_ensure_valid_token] or any operation it holds what it held, or what
    one [store_token] made of that. *)
Theorem token_manager_changes_by_store_only (w : World TM) :
  let kept (w' : World TM) :=
    w_tm w' = w_tm w \/ exists record, w_tm w' = store_token record (w_tm w) in
  kept (snd (_ensure_valid_token env self w))
  /\ (forall eco_twin_id forecast check,
        kept (snd (put_forecast env self eco_twin_id forecast check w)))
  /\ (forall eco_twin_id, kept (snd (get_twin_status env self eco_twin_id w)))
  /\ kept (snd (get_all_twins_status env self w)).
Proof.
  cbv zeta.
  destruct (_ensure_valid_token_effect w) as [_ Htm].
  destruct (operations_effect w) as (Hput & Hget & Hall). cbv zeta in *.
  split; [exact Htm |]. split; [| split]; intros.
  - destruct (Hput eco_twin_id forecast check) as [-> _]. exact Htm.
  - destruct (Hget eco_twin_id) as [-> _]. exact Htm.
  - destruct Hall as [-> _]. exact Htm.
Qed.

(** X19: the credentials stay with the identity endpoint: if form data has
    so far been sent to the token URL only, this is still so after any
    operation; the requests to the API carry a JSON body or none. *)
Theorem credentials_stay_confined (w : World TM) :
  credentials_confined (w_sent w) ->
  credentials_confined (w_sent (snd (_ensure_valid_token env self w)))
  /\ (forall eco_twin_id forecast check,
        credentials_confined
          (w_sent (snd (put_forecast env self eco_twin_id forecast check w))))
  /\ (forall eco_twin_id,
        credentials_confined (w_sent (snd (get_twin_status env self eco_twin_id w))))
  /\ credentials_confined (w_sent (snd (get_all_twins_status env self w))).
Proof.
  intros Hbefore.
  assert (Htoken : credentials_confined (w_sent (snd (_ensure_valid_token env self w)))).
  { destruct (_ensure_valid_token_effect w) as [[-> | ->] _]; [exact Hbefore |].
    constructor; [reflexivity | exact Hbefore]. }
  destruct (operations_effect w) as (Hput & Hget & Hall). cbv zeta in *.
  split; [exact Htoken |]. split; [| split]; intros.
  - destruct (Hput eco_twin_id forecast check) as [_ [-> | [bearer ->]]];
      [exact Htoken |].
    constructor; [discriminate | exact Htoken].
  - destruct (Hget eco_twin_id) as [_ [-> | [bearer ->]]]; [exact Htoken |].
    constructor; [discriminate | exact Htoken].
  - destruct Hall as [_ [-> | [bearer ->]]]; [exact Htoken |].
    constructor; [discriminate | exact Htoken].
Qed.
End Wire.

(** ** The requests and the failures of the single operations *)

Section Requests.
Context {TM : Type} `{TokenManager TM}.
Variable env : Environment.
Variable self : EcoTwinAPIClient.

(** X20: once the token is obtained, [get_twin_status] sends one GET to the
    twin's status URL and [get_all_twins_status] one GET to the status URL
    of all twins; both carry the bearer token as their only header and no
    body. *)
Theorem status_requests (eco_twin_id : string) (w w1 : World TM)
    (access_token : PyVal) :
  _ensure_valid_token env self w = (Return access_token, w1) ->
  w_sent (snd (get_twin_status env self eco_twin_id w))
  = mkRequest GET
      ("https://energyoptimizer.azure-api.net/eco/v2/twins/" ++ eco_twin_id ++ "/status")
      [("Authorization", "Bearer " ++ py_format env access_token)] NoBody
    :: w_sent w1
  /\ w_sent (snd (get_all_twins_status env self w))
     = mkRequest GET "https://energyoptimizer.azure-api.net/eco/v2/status"
         [("Authorization", "Bearer " ++ py_format env access_token)] NoBody
       :: w_sent w1.
Proof.
  intros Htoken.
  rewrite (get_twin_status_run env self _ _ _ _ Htoken).
  rewrite (get_all_twins_status_run env self _ _ _ Htoken).
  split; reflexivity.
Qed.

(** X21: a client built by [_load_credentials] over a token manager asks
    for its token with that manager's credentials: a form-encoded POST to
    the token URL with the client-credentials grant, and no [Authorization]
    header. *)
Theorem token_request_carries_credentials (w : World TM) :
  truthy (get_token (w_tm w) (w_time w)) = false ->
  exists request,
    w_sent (snd (_get_access_token env (_load_credentials (w_tm w)) w))
      = request :: w_sent w
    /\ req_method request = POST
    /\ req_url request
       = "https://login.microsoftonline.com/privagroup.onmicrosoft.com/oauth2/token"
    /\ req_headers request = [("Content-Type", "application/x-www-form-urlencoded")]
    /\ req_payload request
       = FormData
           [("grant_type", "client_credentials");
            ("client_id", cred_client_id (get_credentials (w_tm w)));
            ("client_secret", cred_client_secret (get_credentials (w_tm w)));
            ("resource", cred_resource (get_credentials (w_tm w)))].
Proof.
  intros Hmiss.
  rewrite (_get_access_token_fetch_sent env (_load_credentials (w_tm w)) w Hmiss).
  eexists. repeat split.
Qed.

(** X22: an exception of the HTTP library itself (no connection, a
    timeout) is not caught anywhere: it leaves the token fetch,
    [_ensure_valid_token] and each operation as it was raised, after that
    one request. *)
Theorem transport_failure_propagates (w : World TM) (e : Exn) (elapsed : Q) :
  (truthy (get_token (w_tm w) (w_time w)) = false ->
   transport env (w_sent w) (token_request self) = mkReply (Raise e) elapsed ->
   _get_access_token env self w = (Raise e, after_request w (token_request self) elapsed)
   /\ _ensure_valid_token env self w
      = (Raise e, after_request w (token_request self) elapsed))
  /\ (forall access_token w1,
        _ensure_valid_token env self w = (Return access_token, w1) ->
        let bearer := py_format env access_token in
        (forall eco_twin_id forecast check,
            let request := forecast_request bearer eco_twin_id forecast check in
            transport env (w_sent w1) request = mkReply (Raise e) elapsed ->
            put_forecast env self eco_twin_id forecast check w
            = (Raise e, after_request w1 request elapsed))
        /\ (forall eco_twin_id,
              let request := twin_status_request bearer eco_twin_id in
              transport env (w_sent w1) request = mkReply (Raise e) elapsed ->
              get_twin_status env self eco_twin_id w
              = (Raise e, after_request w1 request elapsed))
        /\ (let request := all_status_request bearer in
            transport env (w_sent w1) request = mkReply (Raise e) elapsed ->
            get_all_twins_status env self w
            = (Raise e, after_request w1 request elapsed))).
Proof.
  split.
  - intros Hmiss Hreply.
    assert (Hfetch : _get_access_token env self w
                     = (Raise e, after_request w (token_request self) elapsed)).
    { now rewrite (_get_access_token_fetch env self w Hmiss), Hreply. }
    split; [exact Hfetch |].
    exact (_ensure_valid_token_fetch_raises env self w _ e Hmiss Hfetch).
  - intros access_token w1 Htoken bearer. split; [| split].
    + intros eco_twin_id forecast check request Hreply.
      rewrite (put_forecast_run env self _ _ _ _ _ _ Htoken). cbv zeta.
      fold bearer. fold request. now rewrite Hreply.
    + intros eco_twin_id request Hreply.
      rewrite (get_twin_status_run env self _ _ _ _ Htoken). cbv zeta.
      fold bearer. fold request. now rewrite Hreply.
    + intros request Hreply.
      rewrite (get_all_twins_status_run env self _ _ _ Htoken). cbv zeta.
      fold bearer. fold request. now rewrite Hreply.
Qed.

(** X23: an answer that passes the status check but whose body is not JSON
    (an empty 204, say) makes [get_twin_status] and [get_all_twins_status]
    fail with [JSONDecodeError] after the request was sent, whereas
    [put_forecast], which does not read the body, returns the answer. *)
Theorem body_not_json (w w1 : World TM) (access_token : PyVal)
    (response : Response) (elapsed : Q) :
  _ensure_valid_token env self w = (Return access_token, w1) ->
  ~ 400 <= status_code response < 600 ->
  resp_json response = None ->
  let bearer := py_format env access_token in
  (forall eco_twin_id,
      let request := twin_status_request bearer eco_twin_id in
      transport env (w_sent w1) request = mkReply (Return response) elapsed ->
      get_twin_status env self eco_twin_id w
      = (Raise JSONDecodeError, after_request w1 request elapsed))
  /\ (let request := all_status_request bearer in
      transport env (w_sent w1) request = mkReply (Return response) elapsed ->
      get_all_twins_status env self w
      = (Raise JSONDecodeError, after_request w1 request elapsed))
  /\ (forall eco_twin_id forecast check,
        let request := forecast_request bearer eco_twin_id forecast check in
        transport env (w_sent w1) request = mkReply (Return response) elapsed ->
        put_forecast env self eco_twin_id forecast check w
        = (Return response, after_request w1 request elapsed)).
Proof.
  intros Htoken Hstatus Hjson bearer. split; [| split].
  - intros eco_twin_id request Hreply.
    rewrite (get_twin_status_run env self _ _ _ _ Htoken). cbv zeta.
    fold bearer. fold request. rewrite Hreply. cbn [reply_outcome reply_elapsed].
    rewrite (raise_for_status_pass response Hstatus).
    unfold response_json. now rewrite Hjson.
  - intros request Hreply.
    rewrite (get_all_twins_status_run env self _ _ _ Htoken). cbv zeta.
    fold bearer. fold request. rewrite Hreply. cbn [reply_outcome reply_elapsed].
    rewrite (raise_for_status_pass response Hstatus).
    unfold response_json. now rewrite Hjson.
  - intros eco_twin_id forecast check request Hreply.
    rewrite (put_forecast_run env self _ _ _ _ _ _ Htoken). cbv zeta.
    fold bearer. fold request. rewrite Hreply. cbn [reply_outcome reply_elapsed].
    now rewrite (raise_for_status_pass response Hstatus).
Qed.
End Requests.

(** ** Concrete runs *)

Lemma cached_record_without_access_token_witness :
  _ensure_valid_token Scenario.online Sample.self Scenario.w_broken
  = (Raise (KeyError "access_token"), Scenario.w_broken).
Proof.
  refine (proj1 (proj2 (cached_record_without_access_token Scenario.online Sample.self
                          Scenario.w_broken [("token_type", PyStr "Bearer")] _ _ _))).
  - reflexivity.
  - discriminate.
  - reflexivity.
Defined.

Lemma cache_miss_sends_one_identity_request_witness :
  w_sent (snd (_ensure_valid_token Scenario.online Sample.self Scenario.w_blank))
  = [token_request Sample.self].
Proof.
  refine (proj2 (cache_miss_sends_one_identity_request Scenario.online Sample.self
                   Scenario.w_blank _)).
  reflexivity.
Defined.


Lemma failed_fetch_stores_nothing_witness :
  w_tm (snd (_get_access_token (Sample.answering 200 None) Sample.self Sample.w_empty))
  = w_tm Sample.w_empty.
Proof.
  refine (failed_fetch_stores_nothing (Sample.answering 200 None) Sample.self
            Sample.w_empty _ JSONDecodeError _ _ _).
  - reflexivity.
  - vm_compute. reflexivity.
  - discriminate.
Defined.


Lemma answer_not_an_object_witness :
  _get_access_token (Sample.answering 204 None) Sample.self Sample.w_empty
  = (Raise JSONDecodeError, after_request Sample.w_empty (token_request Sample.self) 1%Q)
  /\ _get_access_token (Sample.answering 200 (Some (PyList []))) Sample.self
       Sample.w_empty
     = (Raise AttributeError,
        after_request Sample.w_empty (token_request Sample.self) 1%Q).
Proof.
  split.
  - refine (proj1 (answer_not_an_object (Sample.answering 204 None) Sample.self
                     Sample.w_empty (mkResponse 204 None) 1%Q _ _ _) _).
    + reflexivity.
    + reflexivity.
    + simpl. lia.
    + reflexivity.
  - refine (proj2 (answer_not_an_object (Sample.answering 200 (Some (PyList [])))
                     Sample.self Sample.w_empty (mkResponse 200 (Some (PyList []))) 1%Q
                     _ _ _) (PyList []) _ _).
    + reflexivity.
    + reflexivity.
    + simpl. lia.
    + reflexivity.
    + discriminate.
Defined.




Lemma forgotten_token_raises_TypeError_witness :
  fst (_ensure_valid_token
         (Sample.answering 200
            (Some (PyDict [("access_token", PyStr "fresh"); ("expires_in", PyInt 0)])))
         Sample.self Expiring.w_empty)
  = Raise TypeError.
Proof.
  refine (f_equal fst
            (proj1 (forgotten_token_raises_TypeError
                      (Sample.answering 200
                         (Some (PyDict [("access_token", PyStr "fresh");
                                        ("expires_in", PyInt 0)])))
                      Sample.self Expiring.w_empty
                      (snd (_get_access_token
                              (Sample.answering 200
                                 (Some (PyDict [("access_token", PyStr "fresh");
                                                ("expires_in", PyInt 0)])))
                              Sample.self Expiring.w_empty))
                      (PyStr "fresh") _ _ _))).
  - reflexivity.
  - vm_compute. reflexivity.
  - vm_compute. reflexivity.
Defined.


Lemma credentials_stay_confined_witness :
  credentials_confined
    (w_sent (snd (put_forecast Scenario.online Sample.self "tw" Sample.forecast true
                    Sample.w_empty))).
Proof.
  refine (proj1 (proj2 (credentials_stay_confined Scenario.online Sample.self
                          Sample.w_empty _)) "tw" Sample.forecast true).
  constructor.
Defined.

Lemma status_requests_witness :
  w_sent (snd (get_twin_status Scenario.online Sample.self "tw" Sample.w_cached))
  = [mkRequest GET "https://energyoptimizer.azure-api.net/eco/v2/twins/tw/status"
       [("Authorization", "Bearer cached")] NoBody]
  /\ w_sent (snd (get_all_twins_status Scenario.online Sample.self Sample.w_cached))
     = [mkRequest GET "https://energyoptimizer.azure-api.net/eco/v2/status"
          [("Authorization", "Bearer cached")] NoBody].
Proof.
  refine (status_requests Scenario.online Sample.self "tw" Sample.w_cached
            Sample.w_cached (PyStr "cached") _).
  reflexivity.
Defined.

Lemma token_request_carries_credentials_witness :
  exists request,
    w_sent (snd (_get_access_token Scenario.online
                   (_load_credentials (w_tm Sample.w_empty)) Sample.w_empty))
      = request :: w_sent Sample.w_empty
    /\ req_method request = POST
    /\ req_url request
       = "https://login.microsoftonline.com/privagroup.onmicrosoft.com/oauth2/token"
    /\ req_headers request = [("Content-Type", "application/x-www-form-urlencoded")]
    /\ req_payload request
       = FormData
           [("grant_type", "client_credentials"); ("client_id", "id");
            ("client_secret", "secret"); ("resource", "res")].
Proof.
  refine (token_request_carries_credentials Scenario.online Sample.w_empty _).
  reflexivity.
Defined.

Lemma transport_failure_propagates_witness :
  _ensure_valid_token Scenario.unreachable Sample.self Sample.w_empty
  = (Raise RequestException,
     after_request Sample.w_empty (token_request Sample.self) 30%Q)
  /\ get_twin_status Scenario.unreachable Sample.self "tw" Sample.w_cached
     = (Raise RequestException,
        after_request Sample.w_cached (twin_status_request "cached" "tw") 30%Q).
Proof.
  split.
  - refine (proj2 (proj1 (transport_failure_propagates Scenario.unreachable Sample.self
                            Sample.w_empty RequestException 30%Q) _ _)).
    + reflexivity.
    + reflexivity.
  - refine (proj1 (proj2 (proj2 (transport_failure_propagates Scenario.unreachable
                                   Sample.self Sample.w_cached RequestException 30%Q)
                            (PyStr "cached") Sample.w_cached _)) "tw" _).
    + reflexivity.
    + reflexivity.
Defined.

Lemma body_not_json_witness :
  get_twin_status (Sample.answering 204 None) Sample.self "tw" Sample.w_cached
  = (Raise JSONDecodeError,
     after_request Sample.w_cached (twin_status_request "cached" "tw") 1%Q).
Proof.
  refine (proj1 (body_not_json (Sample.answering 204 None) Sample.self Sample.w_cached
                   Sample.w_cached (PyStr "cached") (mkResponse 204 None) 1%Q _ _ _)
            "tw" _).
  - reflexivity.
  - simpl. lia.
  - reflexivity.
  - reflexivity.
Defined.
